(** * Position sizer: the sizing arithmetic and the ATR estimate

    A shallow embedding of [position_sizer.py]: the class [PositionSizer]
    with its four sizing methods, the static helper [fetch_price_and_atr]
    applied to the frame of daily bars it downloads, and the hand-off
    from the fetch to the input fields of the page.

    Two number models.

    - Binary64 ([F64], [Py64], [Sizer64]): Python floats are IEEE 754
      doubles, every operation rounded to nearest even, as the standard
      library's executable specification [SpecFloat] computes them.  [/]
      raises [ZeroDivisionError] on a zero divisor, [math.floor] raises
      on an infinity or a NaN and returns an [int] ([Z]) otherwise.  The
      properties that pin down the numbers a sizing method returns are
      stated in this model.

    - Exact ([Py], [Pandas], [Sizer]): floats are read as rationals
      ([Q]), with the same exceptions on a zero divisor.  It carries the
      order, sign and symmetry properties, and the pandas pipeline, whose
      rounding is fixed inside the library.  Rational results are
      compared with [==] ([Qeq]); integer results and raised exceptions
      with [=]. *)

From Stdlib Require Import ZArith QArith Qround Qabs Qminmax List Lia Lqa Bool.
From Stdlib Require Import SpecFloat.
Import ListNotations.

Open Scope Q_scope.

(** ** Python primitives used by the class *)

Module Py.

(** Exception classes.  [ZeroDivisionError] is raised by [/];
    [ValueError] by pandas' [rolling] on a window below [min_periods] and
    by [math.floor] on a NaN; [OverflowError] by [math.floor] on an
    infinity and by the conversion of too large an [int] to a float;
    [IndexError] by [iloc[-1]] on an empty series.
    [InvalidInput] is the error kind the specification names; no statement
    of the source raises it. *)
Inductive exn : Type :=
  | ZeroDivisionError
  | ValueError
  | OverflowError
  | IndexError
  | InvalidInput.

(** A call either returns a value or raises. *)
Inductive result (A : Type) : Type :=
  | Ok (a : A)
  | Raise (e : exn).

Arguments Ok {A} a.
Arguments Raise {A} e.

Definition bind {A B : Type} (m : result A) (k : A -> result B) : result B :=
  match m with
  | Ok a => k a
  | Raise e => Raise e
  end.

Definition map {A B : Type} (f : A -> B) (m : result A) : result B :=
  bind m (fun a => Ok (f a)).

(** [a / b]: true division of floats. *)
Definition div (a b : Q) : result Q :=
  if Qeq_bool b 0 then Raise ZeroDivisionError else Ok (a / b).

(** [math.floor(x)]: the largest [int] below [x]. *)
Definition floor (x : Q) : Z := Qfloor x.

(** [max(a, b)] on floats: [b] when [b > a], otherwise [a]. *)
Definition max (a b : Q) : Q :=
  if Qle_bool b a then a else b.

(** [max(a, b)] on ints. *)
Definition imax (a b : Z) : Z :=
  if (b <=? a)%Z then a else b.

(** [n * x] with [n] an [int] and [x] a float. *)
Definition imul (n : Z) (x : Q) : Q := inject_Z n * x.

End Py.

Notation "x <- m ;; k" := (Py.bind m (fun x => k))
  (at level 61, m at next level, right associativity).

(** ** The pandas operations used by [fetch_price_and_atr] *)

Module Pandas.

Import Py.

(** A float cell of a column: a number or the missing value. *)
Inductive cell : Type :=
  | NaN
  | Num (q : Q).

(** A column over the frame's index, oldest row first.  All columns of
    one frame share the index, so element-wise operations align by
    position. *)
Definition Series : Type := list cell.

Definition cell_sub (a b : cell) : cell :=
  match a, b with
  | Num x, Num y => Num (x - y)
  | _, _ => NaN
  end.

Definition cell_abs (a : cell) : cell :=
  match a with
  | Num x => Num (Qabs x)
  | NaN => NaN
  end.

(** [a - b] on two series. *)
Definition sub (a b : Series) : Series :=
  List.map (fun p => cell_sub (fst p) (snd p)) (combine a b).

(** [s.abs()]. *)
Definition abs (s : Series) : Series := List.map cell_abs s.

(** [s.shift(1)]: every value moves one row down, the first row becomes
    missing and the last value is dropped. *)
Definition shift (s : Series) : Series :=
  match s with
  | [] => []
  | _ :: _ => NaN :: removelast s
  end.

(** [pd.concat(cols, axis=1)]: the frame whose row [i] holds the [i]-th
    value of every column. *)
Definition concat_axis1 (cols : list Series) : list (list cell) :=
  match cols with
  | [] => []
  | c :: _ =>
      List.map (fun i => List.map (fun s => nth i s NaN) cols)
               (seq 0 (length c))
  end.

(** The larger of two cells, a missing one being skipped. *)
Definition cell_max (a b : cell) : cell :=
  match a, b with
  | NaN, _ => b
  | _, NaN => a
  | Num x, Num y => Num (Qmax x y)
  end.

(** [frame.max(axis=1)] with the default [skipna=True]: the row maximum
    over the values present, missing when the whole row is missing. *)
Definition max_axis1 (frame : list (list cell)) : Series :=
  List.map (fun row => fold_left cell_max row NaN) frame.

(** The numbers present in a window. *)
Fixpoint dropna (s : Series) : list Q :=
  match s with
  | [] => []
  | NaN :: t => dropna t
  | Num x :: t => x :: dropna t
  end.

Definition Qsum (l : list Q) : Q := fold_right Qplus 0 l.

(** Mean of one window under [min_periods=1]: the mean of the values
    present, missing when there is none. *)
Definition window_mean (win : Series) : cell :=
  match dropna win with
  | [] => NaN
  | x :: xs => Num (Qsum (x :: xs) / inject_Z (Z.of_nat (length (x :: xs))))
  end.

(** The window of [s.rolling(window=w)] that ends at row [i]: the rows
    [i - w + 1 .. i], cut at the start of the series. *)
Definition window_at (w : nat) (s : Series) (i : nat) : Series :=
  skipn (i + 1 - w) (firstn (i + 1) s).

(** [s.rolling(window=w, min_periods=1).mean()].  pandas refuses a window
    smaller than [min_periods]. *)
Definition rolling_mean (w : Z) (s : Series) : result Series :=
  if (w <? 1)%Z then Raise ValueError
  else Ok (List.map (fun i => window_mean (window_at (Z.to_nat w) s i))
                    (seq 0 (length s))).

(** [s.iloc[-1]]. *)
Definition iloc_last (s : Series) : result cell :=
  match s with
  | [] => Raise IndexError
  | _ :: _ => Ok (last s NaN)
  end.

End Pandas.

(** ** The class [PositionSizer] *)

Module Sizer.

Import Py.

(** The attributes set by [__init__]. *)
Record PositionSizer : Type := mkSizer {
  account_balance : Q;
  commission_per_trade : Q;
  slippage_per_share : Q
}.

Section Methods.

Variable self : PositionSizer.

Definition risk_amount (risk_pct : Q) : Q :=
  account_balance self * risk_pct.

(** The tuple [qty, cost, risk_amt, trade_risk]. *)
Record FixedRisk : Type := mkFixedRisk {
  fr_qty : Z;
  fr_cost : Q;
  fr_risk_amt : Q;
  fr_trade_risk : Q
}.

Definition fixed_risk_by_stop (entry_price stop_price risk_pct : Q)
  : result FixedRisk :=
  let trade_risk := Qabs (entry_price - stop_price) + slippage_per_share self in
  let risk_amt := risk_amount risk_pct in
  q <- div (risk_amt - commission_per_trade self) trade_risk ;;
  let qty := floor q in
  let qty := imax qty 0 in
  let cost := imul qty entry_price + commission_per_trade self in
  Ok (mkFixedRisk qty cost risk_amt trade_risk).

(** The tuple [qty, cost, position_value]. *)
Record Portfolio : Type := mkPortfolio {
  pf_qty : Z;
  pf_cost : Q;
  pf_position_value : Q
}.

Definition percent_of_portfolio (entry_price allocation_pct : Q)
  : result Portfolio :=
  let position_value := account_balance self * allocation_pct in
  q <- div (position_value - commission_per_trade self) entry_price ;;
  let qty := floor q in
  let qty := imax qty 0 in
  let cost := imul qty entry_price + commission_per_trade self in
  Ok (mkPortfolio qty cost position_value).

(** The tuple [qty, risk_amt, trade_risk]. *)
Record AtrSize : Type := mkAtrSize {
  at_qty : Z;
  at_risk_amt : Q;
  at_trade_risk : Q
}.

Definition atr_position_size (atr atr_multiplier risk_pct : Q)
  : result AtrSize :=
  let trade_risk := atr * atr_multiplier + slippage_per_share self in
  let risk_amt := risk_amount risk_pct in
  q <- div (risk_amt - commission_per_trade self) trade_risk ;;
  let qty := floor q in
  let qty := imax qty 0 in
  Ok (mkAtrSize qty risk_amt trade_risk).

(** The tuple [qty, raw_kelly, kelly_used, position_value]. *)
Record Kelly : Type := mkKelly {
  kl_qty : Z;
  kl_raw_kelly : Q;
  kl_kelly_used : Q;
  kl_position_value : Q
}.

Definition kelly_position_size
  (entry_price win_rate win_loss_ratio fraction_of_kelly : Q)
  : result Kelly :=
  let W := win_rate in
  let R := win_loss_ratio in
  t <- div (1 - W) R ;;
  let raw_kelly := W - t in
  let kelly_used := max raw_kelly 0 * fraction_of_kelly in
  let position_value := account_balance self * kelly_used in
  q <- div (position_value - commission_per_trade self) entry_price ;;
  let qty := floor q in
  let qty := imax qty 0 in
  Ok (mkKelly qty raw_kelly kelly_used position_value).

End Methods.

(** The outputs of [fixed_risk_by_stop] that do not involve the entry
    price directly: quantity, risk amount and risk per share. *)
Definition risk_outputs (r : FixedRisk) : Z * Q * Q :=
  (fr_qty r, fr_risk_amt r, fr_trade_risk r).

(** The four calls the page can make, one per sizing method, with the
    arguments it passes. *)
Inductive sizing_call : Type :=
  | CallFixedRisk (entry stop risk_pct : Q)
  | CallPortfolio (entry alloc_pct : Q)
  | CallAtr (atr atr_mult risk_pct : Q)
  | CallKelly (entry win_rate win_loss_ratio frac_kelly : Q).

(** The share count [qty] the page reads from the tuple a call returns. *)
Definition quantity (sizer : PositionSizer) (c : sizing_call) : result Z :=
  match c with
  | CallFixedRisk e s p => map fr_qty (fixed_risk_by_stop sizer e s p)
  | CallPortfolio e a => map pf_qty (percent_of_portfolio sizer e a)
  | CallAtr a m p => map at_qty (atr_position_size sizer a m p)
  | CallKelly e w r f => map kl_qty (kelly_position_size sizer e w r f)
  end.

(** One row of the frame [yf.download] returns: the columns the method
    reads. *)
Record Bar : Type := mkBar {
  High : Q;
  Low : Q;
  Close : Q
}.

(** [df[name]]. *)
Definition column (f : Bar -> Q) (df : list Bar) : Pandas.Series :=
  List.map (fun b => Pandas.Num (f b)) df.

(** What the method returns: [(None, None)] or two floats. *)
Inductive Fetched : Type :=
  | NoData
  | PriceAtr (last_close atr : Pandas.cell).

(** The static method [fetch_price_and_atr], from the frame [df] that
    [yf.download(ticker, period)] returned. *)
Definition fetch_price_and_atr (df : list Bar) (atr_period : Z)
  : result Fetched :=
  match df with
  | [] => Ok NoData
  | _ :: _ =>
      let high := column High df in
      let low := column Low df in
      let close := column Close df in
      let prev_close := Pandas.shift close in
      let tr :=
        Pandas.max_axis1
          (Pandas.concat_axis1
             [Pandas.sub high low;
              Pandas.abs (Pandas.sub high prev_close);
              Pandas.abs (Pandas.sub low prev_close)]) in
      means <- Pandas.rolling_mean atr_period tr ;;
      atr <- Pandas.iloc_last means ;;
      last_close <- Pandas.iloc_last close ;;
      Ok (PriceAtr last_close atr)
  end.

End Sizer.

(** ** The true-range column of [fetch_price_and_atr] *)

Module Volatility.

Import Sizer.

(** The local [tr] of the method: the row maximum over the three
    concatenated columns. *)
Definition tr (df : list Bar) : Pandas.Series :=
  let high := column High df in
  let low := column Low df in
  let close := column Close df in
  let prev_close := Pandas.shift close in
  Pandas.max_axis1
    (Pandas.concat_axis1
       [Pandas.sub high low;
        Pandas.abs (Pandas.sub high prev_close);
        Pandas.abs (Pandas.sub low prev_close)]).

(** The number in row [i] of [tr]: on the first row only [high - low] is
    present; below it the maximum folds the three columns left to right. *)
Definition tr_at (df : list Bar) (i : nat) : Q :=
  let b := nth i df (mkBar 0 0 0) in
  match i with
  | O => High b - Low b
  | S j =>
      let prev := Close (nth j df (mkBar 0 0 0)) in
      Qmax (Qmax (High b - Low b) (Qabs (High b - prev)))
           (Qabs (Low b - prev))
  end.

End Volatility.

(** ** The specification's reading of the ATR *)

Module Spec.

Import Sizer.

Definition bar0 : Bar := mkBar 0 0 0.

(** trueRange[0] = high[0] - low[0];
    trueRange[i] = max(high[i] - low[i], |high[i] - close[i-1]|,
    |low[i] - close[i-1]|) for i > 0. *)
Definition trueRange (bars : list Bar) (i : nat) : Q :=
  let b := nth i bars bar0 in
  match i with
  | O => High b - Low b
  | S j =>
      let prev := Close (nth j bars bar0) in
      Qmax (High b - Low b)
           (Qmax (Qabs (High b - prev)) (Qabs (Low b - prev)))
  end.

(** The trailing window: the last [min(atrPeriod, number of bars)] bars. *)
Definition windowSize (bars : list Bar) (atrPeriod : Z) : nat :=
  Nat.min (Z.to_nat atrPeriod) (length bars).

(** Arithmetic mean of trueRange over the trailing window. *)
Definition atr (bars : list Bar) (atrPeriod : Z) : Q :=
  let w := windowSize bars atrPeriod in
  Pandas.Qsum (List.map (trueRange bars) (seq (length bars - w) w))
  / inject_Z (Z.of_nat w).

(** Close of the final bar. *)
Definition lastClose (bars : list Bar) : Q := Close (last bars bar0).

End Spec.

(** ** The page: what it passes from the fetch to the input fields *)

Module Page.

Import Py Sizer.





End Page.

(** ** Binary64 arithmetic *)

Module F64.

Definition prec : Z := 53.
Definition emax : Z := 1024.

(** A double: a signed zero, a signed infinity, NaN, or
    [(-1)^s * m * 2^e]. *)
Definition float : Type := spec_float.

Definition add : float -> float -> float := SFadd prec emax.
Definition sub : float -> float -> float := SFsub prec emax.
Definition mul : float -> float -> float := SFmul prec emax.
Definition div : float -> float -> float := SFdiv prec emax.
Definition abs : float -> float := SFabs.

(** [a < b]; false as soon as one side is NaN. *)
Definition ltb : float -> float -> bool := SFltb.

(** [a <= b]; false as soon as one side is NaN. *)
Definition leb : float -> float -> bool := SFleb.

(** The double nearest to an integer. *)
Definition of_Z (n : Z) : float := binary_normalize prec emax n 0 false.

(** The literals [0.0] and [1.0]. *)
Definition zero : float := S754_zero false.
Definition one : float := of_Z 1.

(** The double nearest to [n / 10^k]: the decimal literal with digits
    [n] and [k] decimal places. *)
Definition dec (n : Z) (k : nat) : float :=
  div (of_Z n) (of_Z (10 ^ Z.of_nat k)).

Definition is_zero (x : float) : bool :=
  match x with
  | S754_zero _ => true
  | _ => false
  end.

(** [math.isfinite]. *)
Definition is_finite (x : float) : bool :=
  match x with
  | S754_zero _ | S754_finite _ _ _ => true
  | _ => false
  end.

(** The rational [(-1)^s * m * 2^e]. *)
Definition finite_value (s : bool) (m : positive) (e : Z) : Q :=
  match e with
  | Zneg p => cond_Zopp s (Zpos m) # (2 ^ p)
  | _ => inject_Z (cond_Zopp s (Zpos m) * 2 ^ e)
  end.


End F64.

(** ** Python primitives on doubles *)

Module Py64.

Import Py F64.

(** [a / b]: true division of floats. *)
Definition truediv (a b : float) : result float :=
  if is_zero b then Raise ZeroDivisionError else Ok (div a b).

(** [math.floor(x)]. *)
Definition floor (x : float) : result Z :=
  match x with
  | S754_nan => Raise ValueError
  | S754_infinity _ => Raise OverflowError
  | S754_zero _ => Ok 0%Z
  | S754_finite s m e => Ok (Qfloor (finite_value s m e))
  end.

(** [float(n)] for an [int]: the nearest double, [OverflowError] when
    that is beyond the largest one. *)
Definition int_to_float (n : Z) : result float :=
  match of_Z n with
  | S754_infinity _ => Raise OverflowError
  | x => Ok x
  end.

(** [n * x] with [n] an [int] and [x] a float. *)
Definition imul (n : Z) (x : float) : result float :=
  f <- int_to_float n ;;
  Ok (mul f x).

(** [max(a, b)] on floats: [b] when [b > a], otherwise [a]. *)
Definition max (a b : float) : float :=
  if ltb a b then b else a.

End Py64.

(** ** The class [PositionSizer] on doubles *)

Module Sizer64.

Import Py F64 Py64.

(** The attributes set by [__init__]. *)
Record PositionSizer : Type := mkSizer {
  account_balance : float;
  commission_per_trade : float;
  slippage_per_share : float
}.

Section Methods.

Variable self : PositionSizer.

Definition risk_amount (risk_pct : float) : float :=
  mul (account_balance self) risk_pct.

(** The tuple [qty, cost, risk_amt, trade_risk]. *)
Record FixedRisk : Type := mkFixedRisk {
  fr_qty : Z;
  fr_cost : float;
  fr_risk_amt : float;
  fr_trade_risk : float
}.

Definition fixed_risk_by_stop (entry_price stop_price risk_pct : float)
  : result FixedRisk :=
  let trade_risk :=
    add (abs (sub entry_price stop_price)) (slippage_per_share self) in
  let risk_amt := risk_amount risk_pct in
  q <- truediv (sub risk_amt (commission_per_trade self)) trade_risk ;;
  qty <- floor q ;;
  let qty := imax qty 0 in
  t <- imul qty entry_price ;;
  let cost := add t (commission_per_trade self) in
  Ok (mkFixedRisk qty cost risk_amt trade_risk).

(** The tuple [qty, cost, position_value]. *)
Record Portfolio : Type := mkPortfolio {
  pf_qty : Z;
  pf_cost : float;
  pf_position_value : float
}.

Definition percent_of_portfolio (entry_price allocation_pct : float)
  : result Portfolio :=
  let position_value := mul (account_balance self) allocation_pct in
  q <- truediv (sub position_value (commission_per_trade self))
               entry_price ;;
  qty <- floor q ;;
  let qty := imax qty 0 in
  t <- imul qty entry_price ;;
  let cost := add t (commission_per_trade self) in
  Ok (mkPortfolio qty cost position_value).

(** The tuple [qty, risk_amt, trade_risk]. *)
Record AtrSize : Type := mkAtrSize {
  at_qty : Z;
  at_risk_amt : float;
  at_trade_risk : float
}.

Definition atr_position_size (atr atr_multiplier risk_pct : float)
  : result AtrSize :=
  let trade_risk := add (mul atr atr_multiplier) (slippage_per_share self) in
  let risk_amt := risk_amount risk_pct in
  q <- truediv (sub risk_amt (commission_per_trade self)) trade_risk ;;
  qty <- floor q ;;
  let qty := imax qty 0 in
  Ok (mkAtrSize qty risk_amt trade_risk).

(** The tuple [qty, raw_kelly, kelly_used, position_value]. *)
Record Kelly : Type := mkKelly {
  kl_qty : Z;
  kl_raw_kelly : float;
  kl_kelly_used : float;
  kl_position_value : float
}.

Definition kelly_position_size
  (entry_price win_rate win_loss_ratio fraction_of_kelly : float)
  : result Kelly :=
  let W := win_rate in
  let R := win_loss_ratio in
  t <- truediv (sub one W) R ;;
  let raw_kelly := sub W t in
  let kelly_used := mul (max raw_kelly zero) fraction_of_kelly in
  let position_value := mul (account_balance self) kelly_used in
  q <- truediv (sub position_value (commission_per_trade self))
               entry_price ;;
  qty <- floor q ;;
  let qty := imax qty 0 in
  Ok (mkKelly qty raw_kelly kelly_used position_value).

End Methods.

(** The four calls the page can make, one per sizing method, with the
    arguments it passes. *)
Inductive sizing_call : Type :=
  | CallFixedRisk (entry stop risk_pct : float)
  | CallPortfolio (entry alloc_pct : float)
  | CallAtr (atr atr_mult risk_pct : float)
  | CallKelly (entry win_rate win_loss_ratio frac_kelly : float).

(** The share count [qty] the page reads from the tuple a call returns. *)
Definition quantity (sizer : PositionSizer) (c : sizing_call) : result Z :=
  match c with
  | CallFixedRisk e s p => map fr_qty (fixed_risk_by_stop sizer e s p)
  | CallPortfolio e a => map pf_qty (percent_of_portfolio sizer e a)
  | CallAtr a m p => map at_qty (atr_position_size sizer a m p)
  | CallKelly e w r f => map kl_qty (kelly_position_size sizer e w r f)
  end.

End Sizer64.

(** ** Python primitives: basic facts *)

Module PyFacts.

Import Py.

Lemma Ok_inj {A : Type} (a b : A) : Ok a = Ok b -> a = b.
Proof. intros H. now injection H. Qed.

Lemma div_nonzero (a b : Q) : ~ b == 0 -> div a b = Ok (a / b).
Proof.
  intros Hb. unfold div.
  destruct (Qeq_bool b 0) eqn:E; [|reflexivity].
  apply Qeq_bool_eq in E. contradiction.
Qed.

Lemma div_zero (a b : Q) : b == 0 -> div a b = Raise ZeroDivisionError.
Proof.
  intros Hb. unfold div. now rewrite (Qeq_eq_bool _ _ Hb).
Qed.

Lemma imax_Zmax (a b : Z) : imax a b = Z.max a b.
Proof. unfold imax. destruct (Z.leb_spec b a); lia. Qed.

Lemma imax_0_nonneg (a : Z) : (0 <= imax a 0)%Z.
Proof. rewrite imax_Zmax. lia. Qed.

(** The floor of a quotient by a positive divisor brackets the dividend. *)
Lemma floor_div_lower (n d : Q) :
  0 < d -> inject_Z (floor (n / d)) * d <= n.
Proof.
  intros Hd. unfold floor.
  assert (H := Qfloor_le (n / d)).
  apply (Qmult_le_compat_r _ _ d) in H; [|now apply Qlt_le_weak].
  assert (E : n / d * d == n) by (field; intros E; rewrite E in Hd; now apply Qlt_irrefl in Hd).
  now rewrite E in H.
Qed.

Lemma floor_div_upper (n d : Q) :
  0 < d -> n < (inject_Z (floor (n / d)) + 1) * d.
Proof.
  intros Hd. unfold floor.
  assert (H := Qlt_floor (n / d)).
  rewrite inject_Z_plus in H.
  apply (Qmult_lt_compat_r _ _ d) in H; [|assumption].
  assert (E : n / d * d == n) by (field; intros E; rewrite E in Hd; now apply Qlt_irrefl in Hd).
  now rewrite E in H.
Qed.


(** [abs(a - b)] and [abs(b - a)] are the same number, digit for digit. *)
Lemma Qabs_sub_swap (a b : Q) : Qabs (a - b) = Qabs (b - a).
Proof.
  destruct a as [an ad], b as [bn bd].
  unfold Qabs, Qminus, Qplus, Qopp; simpl.
  f_equal; [lia | apply Pos.mul_comm].
Qed.

End PyFacts.

(** ** The sizing methods *)

Module SizerFacts.

Import Py Sizer PyFacts.

Section Account.

Variable self : PositionSizer.

Let slippage := slippage_per_share self.


Lemma fixed_risk_by_stop_raises (e s p : Q) :
  Qabs (e - s) + slippage == 0 ->
  fixed_risk_by_stop self e s p = Raise ZeroDivisionError.
Proof.
  intros H. unfold fixed_risk_by_stop.
  fold slippage. now rewrite (div_zero _ _ H).
Qed.


End Account.

(** Every tuple a sizing method builds carries [max(qty, 0)]. *)
Lemma quantity_is_clamped (self : PositionSizer) (c : sizing_call) (q : Z) :
  quantity self c = Ok q -> exists k : Z, q = imax k 0.
Proof.
  destruct c; cbn [quantity]; unfold map.
  - unfold fixed_risk_by_stop.
    destruct (div _ _); cbn; intros [= <-]; eauto.
  - unfold percent_of_portfolio.
    destruct (div _ _); cbn; intros [= <-]; eauto.
  - unfold atr_position_size.
    destruct (div _ _); cbn; intros [= <-]; eauto.
  - unfold kelly_position_size.
    destruct (div _ win_loss_ratio); cbn; [|discriminate].
    destruct (div _ _); cbn; intros [= <-]; eauto.
Qed.

End SizerFacts.

(** ** Properties of [fixed_risk_by_stop] *)

Module FixedRisk.

Import Py Sizer PyFacts SizerFacts.

(** C2, as the code has it.  When entry equals stop and the slippage is
    zero, the division [(risk_amt - commission) / trade_risk] raises
    Python's [ZeroDivisionError]; the method returns no tuple. *)
Theorem fixed_risk_by_stop_zero_risk
  (self : PositionSizer) (entry stop riskPct : Q) :
  entry == stop ->
  slippage_per_share self == 0 ->
  fixed_risk_by_stop self entry stop riskPct = Raise ZeroDivisionError.
Proof.
  intros He Hs. apply fixed_risk_by_stop_raises.
  rewrite Hs, He. unfold Qminus. rewrite Qplus_opp_r. reflexivity.
Qed.

Lemma fixed_risk_by_stop_zero_risk_witness :
  fixed_risk_by_stop (mkSizer 10000 0 0) 100 100 0.02
  = Raise ZeroDivisionError.
Proof.
  apply (fixed_risk_by_stop_zero_risk (mkSizer 10000 0 0) 100 100 0.02);
    reflexivity.
Defined.

(** C2, as stated, fails: with entry = stop = 100 and no slippage the
    call neither raises [InvalidInput] nor returns quantity 0; it raises
    the division-by-zero error. *)
Lemma fixed_risk_by_stop_zero_risk_counterexample :
  let call := fixed_risk_by_stop (mkSizer 10000 0 0) 100 100 0.02 in
  100 == 100 /\ slippage_per_share (mkSizer 10000 0 0) == 0 /\
  call = Raise ZeroDivisionError /\
  ~ (call = Raise InvalidInput \/
     exists r : FixedRisk, call = Ok r /\ fr_qty r = 0%Z).
Proof.
  cbv zeta. repeat split.
  intros [H | [r [H _]]]; discriminate H.
Qed.



(** C10.  Swapping entry and stop leaves the quantity, the risk amount
    and the risk per share unchanged, whether the call returns or raises:
    only the cost depends on which of the two prices is the entry. *)
Theorem fixed_risk_by_stop_swap
  (self : PositionSizer) (entry stop riskPct : Q) :
  map risk_outputs (fixed_risk_by_stop self entry stop riskPct)
  = map risk_outputs (fixed_risk_by_stop self stop entry riskPct).
Proof.
  unfold fixed_risk_by_stop.
  rewrite (Qabs_sub_swap stop entry).
  destruct (div _ _); reflexivity.
Qed.

End FixedRisk.

(** ** Properties shared by, or particular to, the other methods *)

Module Sizing.

Import Py Sizer PyFacts SizerFacts.

(** C3.  Whichever of the four sizing methods is called, if the call
    returns then the quantity in the returned tuple is an integer (an
    [int], here a [Z]) and is at least zero. *)
Theorem quantity_nonnegative
  (self : PositionSizer) (c : sizing_call) (qty : Z) :
  quantity self c = Ok qty -> (0 <= qty)%Z.
Proof.
  intros H. destruct (quantity_is_clamped self c qty H) as [k ->].
  apply imax_0_nonneg.
Qed.

Lemma quantity_nonnegative_witness :
  (0 <= 40)%Z /\ (0 <= 25)%Z /\ (0 <= 100)%Z /\ (0 <= 6)%Z.
Proof.
  pose (acct := mkSizer 10000 0 0).
  repeat split.
  - apply (quantity_nonnegative acct (CallFixedRisk 100 95 0.02)).
    reflexivity.
  - apply (quantity_nonnegative acct (CallPortfolio 50 0.125)).
    reflexivity.
  - apply (quantity_nonnegative acct (CallAtr 2 1 0.02)).
    reflexivity.
  - apply (quantity_nonnegative acct (CallKelly 100 0.55 1.5 0.25)).
    reflexivity.
Defined.

(** C6, as the code has it.  With win/loss ratio 0 the first division,
    [(1 - W) / R], raises Python's [ZeroDivisionError]; the method
    returns no tuple. *)
Theorem kelly_position_size_zero_ratio
  (self : PositionSizer) (entry winRate winLossRatio fractionOfKelly : Q) :
  winLossRatio == 0 ->
  kelly_position_size self entry winRate winLossRatio fractionOfKelly
  = Raise ZeroDivisionError.
Proof.
  intros Hz. unfold kelly_position_size.
  now rewrite (div_zero _ _ Hz).
Qed.

Lemma kelly_position_size_zero_ratio_witness :
  kelly_position_size (mkSizer 10000 0 0) 100 0.55 0 0.25
  = Raise ZeroDivisionError.
Proof.
  apply (kelly_position_size_zero_ratio (mkSizer 10000 0 0) 100 0.55 0 0.25).
  reflexivity.
Defined.

(** C6, as stated, fails: with win/loss ratio 0 the error that reaches
    the caller is the division's own [ZeroDivisionError], not
    [InvalidInput]: the method does divide by zero. *)
Lemma kelly_position_size_zero_ratio_counterexample :
  let call := kelly_position_size (mkSizer 10000 0 0) 100 0.55 0 0.25 in
  call = Raise ZeroDivisionError /\ call <> Raise InvalidInput.
Proof.
  cbv zeta. split; [reflexivity|]. intros H. discriminate H.
Qed.

End Sizing.

(** ** The pandas operations: positions and windows *)

Module PandasFacts.

Import Py Pandas.

Lemma length_sub (a b : Series) :
  length a = length b -> length (sub a b) = length a.
Proof.
  intros H. unfold sub. rewrite length_map, length_combine, <- H.
  apply Nat.min_id.
Qed.

Lemma nth_sub (a b : Series) (i : nat) :
  length a = length b ->
  nth i (sub a b) NaN = cell_sub (nth i a NaN) (nth i b NaN).
Proof.
  intros H. unfold sub.
  change NaN with ((fun p => cell_sub (fst p) (snd p)) (NaN, NaN)) at 1.
  rewrite map_nth, combine_nth by exact H. reflexivity.
Qed.

Lemma nth_abs (s : Series) (i : nat) :
  nth i (abs s) NaN = cell_abs (nth i s NaN).
Proof.
  unfold abs. change NaN with (cell_abs NaN) at 1. apply map_nth.
Qed.

Lemma length_shift (s : Series) : length (shift s) = length s.
Proof.
  destruct s as [|x t]; [reflexivity|].
  unfold shift. cbn [length]. rewrite removelast_firstn_len, length_firstn.
  cbn [length]. lia.
Qed.

Lemma nth_shift_0 (s : Series) : nth 0 (shift s) NaN = NaN.
Proof. destruct s; reflexivity. Qed.

Lemma nth_shift_S (s : Series) (j : nat) :
  (S j < length s)%nat -> nth (S j) (shift s) NaN = nth j s NaN.
Proof.
  intros H. destruct s as [|x t]; [cbn in H; lia|].
  unfold shift. cbn [nth].
  rewrite removelast_firstn_len, nth_firstn.
  destruct (Nat.ltb_spec j (pred (length (x :: t)))); [reflexivity|].
  cbn [length] in *. lia.
Qed.

(** Row maximum of three aligned columns. *)
Lemma max_concat3 (a b c : Series) :
  max_axis1 (concat_axis1 [a; b; c])
  = List.map (fun i =>
                cell_max (cell_max (nth i a NaN) (nth i b NaN)) (nth i c NaN))
             (seq 0 (length a)).
Proof.
  unfold max_axis1, concat_axis1. rewrite map_map.
  apply map_ext. intros i. reflexivity.
Qed.

Lemma dropna_nums (f : nat -> Q) (l : list nat) :
  dropna (List.map (fun i => Num (f i)) l) = List.map f l.
Proof.
  induction l as [|i l IH]; [reflexivity|].
  cbn [List.map dropna]. now rewrite IH.
Qed.

Lemma last_map_seq {A : Type} (f : nat -> A) (n : nat) (d : A) :
  last (List.map f (seq 0 (S n))) d = f n.
Proof.
  rewrite seq_S, map_app. cbn [List.map]. apply last_last.
Qed.

Lemma iloc_last_map_seq (f : nat -> cell) (n : nat) :
  iloc_last (List.map f (seq 0 (S n))) = Ok (f n).
Proof.
  rewrite <- (last_map_seq f n NaN). reflexivity.
Qed.

(** The window that ends at the last row is the tail of the series. *)
Lemma window_at_last (w : nat) (s : Series) (n : nat) :
  length s = S n -> window_at w s n = skipn (S n - w) s.
Proof.
  intros H. unfold window_at.
  replace (n + 1)%nat with (length s) by lia.
  rewrite firstn_all. now rewrite H.
Qed.

(** Sums of pointwise equal numbers are equal. *)
Lemma Qsum_map_ext (f g : nat -> Q) (l : list nat) :
  (forall i, In i l -> f i == g i) ->
  Qsum (List.map f l) == Qsum (List.map g l).
Proof.
  induction l as [|i l IH]; intros H; [reflexivity|].
  cbn [List.map Qsum fold_right].
  rewrite (H i (or_introl eq_refl)).
  fold (Qsum (List.map f l)). fold (Qsum (List.map g l)).
  rewrite IH; [reflexivity|].
  intros k Hk. apply H. now right.
Qed.

(** The last rolling mean of a series without missing values. *)
Lemma rolling_mean_last (f : nat -> Q) (w : Z) (n : nat) :
  (1 <= w)%Z ->
  forall m : nat, m = Nat.min (Z.to_nat w) (S n) ->
  (means <- rolling_mean w (List.map (fun i => Num (f i)) (seq 0 (S n))) ;;
   iloc_last means)
  = Ok (Num (Qsum (List.map f (seq (S n - m) m))
             / inject_Z (Z.of_nat (length (List.map f (seq (S n - m) m)))))).
Proof.
  intros Hw m Hm. unfold rolling_mean.
  destruct (Z.ltb_spec w 1); [lia|]. cbn [bind].
  rewrite length_map, length_seq.
  rewrite iloc_last_map_seq. f_equal.
  rewrite window_at_last by now rewrite length_map, length_seq.
  rewrite skipn_map, skipn_seq.
  replace (0 + (S n - Z.to_nat w))%nat with (S n - m)%nat by lia.
  replace (S n - (S n - Z.to_nat w))%nat with m by lia.
  unfold window_mean. rewrite dropna_nums.
  destruct (List.map f (seq (S n - m) m)) eqn:E'; [|reflexivity].
  apply (f_equal (@length _)) in E'.
  rewrite length_map, length_seq in E'. cbn in E'. lia.
Qed.

End PandasFacts.

(** ** [fetch_price_and_atr] *)

Module Fetch.

Import Py Pandas Sizer Volatility PyFacts PandasFacts.

Lemma length_column (f : Bar -> Q) (df : list Bar) :
  length (column f df) = length df.
Proof. apply length_map. Qed.

Lemma nth_column (f : Bar -> Q) (df : list Bar) (i : nat) :
  (i < length df)%nat ->
  nth i (column f df) NaN = Num (f (nth i df (mkBar 0 0 0))).
Proof.
  intros H. unfold column.
  rewrite (nth_indep _ NaN (Num (f (mkBar 0 0 0))))
    by now rewrite length_map.
  apply (map_nth (fun b => Num (f b))).
Qed.

(** Row by row, the column [tr] holds the numbers [tr_at]. *)
Lemma tr_rows (df : list Bar) :
  tr df = List.map (fun i => Num (tr_at df i)) (seq 0 (length df)).
Proof.
  unfold tr. rewrite max_concat3.
  rewrite length_sub, length_column by now rewrite !length_column.
  apply map_ext_in. intros i Hi. apply in_seq in Hi.
  assert (Hlen : forall f g,
             length (column f df) = length (shift (column g df)))
    by (intros; now rewrite length_shift, !length_column).
  rewrite !nth_abs, !nth_sub, !nth_column
    by (try apply Hlen; try (now rewrite !length_column); lia).
  destruct i as [|j].
  - rewrite nth_shift_0. reflexivity.
  - rewrite nth_shift_S, nth_column by (rewrite ?length_column; lia).
    reflexivity.
Qed.

(** The left-to-right fold and the specification's nested maximum name
    the same number. *)
Lemma tr_at_trueRange (df : list Bar) (i : nat) :
  tr_at df i == Spec.trueRange df i.
Proof.
  destruct i as [|j]; [reflexivity|].
  unfold tr_at, Spec.trueRange, Spec.bar0. cbv zeta.
  symmetry. apply Q.max_assoc.
Qed.

(** On a frame with rows the method is the pipeline after the guard. *)
Lemma fetch_price_and_atr_rows (df : list Bar) (atr_period : Z) :
  df <> [] ->
  fetch_price_and_atr df atr_period =
  (atr <- (means <- rolling_mean atr_period (tr df) ;; iloc_last means) ;;
   last_close <- iloc_last (column Close df) ;;
   Ok (PriceAtr last_close atr)).
Proof.
  intros H. destruct df as [|b t]; [contradiction|].
  unfold fetch_price_and_atr, tr.
  destruct (rolling_mean _ _); reflexivity.
Qed.

Lemma last_map {A B : Type} (g : A -> B) (l : list A) (d : A) (d' : B) :
  l <> [] -> last (List.map g l) d' = g (last l d).
Proof.
  induction l as [|x l IH]; intros H; [contradiction|].
  destruct l as [|y l]; [reflexivity|].
  change (last (List.map g (y :: l)) d' = g (last (y :: l) d)).
  apply IH. discriminate.
Qed.

Lemma iloc_last_column (f : Bar -> Q) (df : list Bar) :
  df <> [] ->
  iloc_last (column f df) = Ok (Num (f (last df (mkBar 0 0 0)))).
Proof.
  intros H. unfold column.
  rewrite <- (last_map (fun b => Num (f b)) df (mkBar 0 0 0) NaN H).
  destruct df; [contradiction|reflexivity].
Qed.

Lemma fetch_price_and_atr_value (df : list Bar) (atr_period : Z) :
  df <> [] -> (1 <= atr_period)%Z ->
  forall n m : nat,
  n = length df -> m = Nat.min (Z.to_nat atr_period) n ->
  fetch_price_and_atr df atr_period =
  Ok (PriceAtr
        (Num (Close (last df (mkBar 0 0 0))))
        (Num (Qsum (List.map (tr_at df) (seq (n - m) m))
              / inject_Z (Z.of_nat
                            (length (List.map (tr_at df) (seq (n - m) m))))))).
Proof.
  intros Hne Hw n m Hn Hm.
  rewrite (fetch_price_and_atr_rows df atr_period Hne), tr_rows, <- Hn.
  destruct n as [|k].
  { destruct df; [contradiction|discriminate Hn]. }
  rewrite (rolling_mean_last (tr_at df) atr_period k Hw m Hm).
  cbn [bind]. rewrite (iloc_last_column Close df Hne). reflexivity.
Qed.

End Fetch.

(** ** Properties of [fetch_price_and_atr] *)

Module Atr.

Import Py Pandas Sizer Volatility PyFacts PandasFacts Fetch.

(** In the exact model, on a non-empty sequence of bars and a positive
    atrPeriod, the pipeline returns the close of the final bar and the
    arithmetic mean of the true range over the last min(atrPeriod,
    number of bars) bars.  (The double pandas returns is this mean as
    its rolling sum rounds it.) *)
Theorem fetch_price_and_atr_mean (bars : list Bar) (atrPeriod : Z) :
  bars <> [] ->
  (0 < atrPeriod)%Z ->
  exists lastClose atr : Q,
    fetch_price_and_atr bars atrPeriod
      = Ok (PriceAtr (Num lastClose) (Num atr)) /\
    lastClose = Spec.lastClose bars /\
    atr == Spec.atr bars atrPeriod.
Proof.
  intros Hne Hpos.
  do 2 eexists. split; [|split].
  - apply (fetch_price_and_atr_value bars atrPeriod Hne)
      with (n := length bars) (m := Spec.windowSize bars atrPeriod);
      [lia | reflexivity | reflexivity].
  - reflexivity.
  - unfold Spec.atr. cbv zeta.
    rewrite length_map, length_seq.
    apply Qmult_comp; [|reflexivity].
    apply Qsum_map_ext. intros i _. apply tr_at_trueRange.
Qed.

Lemma fetch_price_and_atr_mean_witness :
  exists lastClose atr : Q,
    fetch_price_and_atr
      [mkBar 10 8 9; mkBar 12 9 11; mkBar 11 10 10.5; mkBar 14 10 13] 3
      = Ok (PriceAtr (Num lastClose) (Num atr)) /\
    lastClose =
      Spec.lastClose
        [mkBar 10 8 9; mkBar 12 9 11; mkBar 11 10 10.5; mkBar 14 10 13] /\
    atr ==
      Spec.atr
        [mkBar 10 8 9; mkBar 12 9 11; mkBar 11 10 10.5; mkBar 14 10 13] 3.
Proof.
  apply (fetch_price_and_atr_mean
           [mkBar 10 8 9; mkBar 12 9 11; mkBar 11 10 10.5; mkBar 14 10 13] 3);
    [discriminate | reflexivity].
Defined.

(** C8.  On the empty sequence of bars [fetch_price_and_atr] raises
    nothing and returns the empty result [(None, None)], whatever the
    atrPeriod. *)
Theorem fetch_price_and_atr_empty (atrPeriod : Z) :
  fetch_price_and_atr [] atrPeriod = Ok NoData.
Proof. reflexivity. Qed.

End Atr.

(** ** The worked examples of the specification, in the exact model *)

Module Examples.

Import Py Pandas Sizer.

Example percent_of_portfolio_example :
  exists r : Portfolio,
    percent_of_portfolio (mkSizer 10000 0 0) 50 0.10 = Ok r /\
    pf_position_value r == 1000 /\ pf_qty r = 20%Z /\ pf_cost r == 1000.
Proof. eexists. split; [reflexivity|]. repeat split. Qed.

Example atr_position_size_example :
  exists r : AtrSize,
    atr_position_size (mkSizer 10000 0 0) 2 1 0.02 = Ok r /\
    at_risk_amt r == 200 /\ at_trade_risk r == 2 /\ at_qty r = 100%Z.
Proof. eexists. split; [reflexivity|]. repeat split. Qed.

Example kelly_position_size_example :
  exists r : Kelly,
    kelly_position_size (mkSizer 10000 0 0) 100 0.55 1.5 0.25 = Ok r /\
    kl_raw_kelly r == 0.25 /\ kl_kelly_used r == 0.0625 /\
    kl_position_value r == 625 /\ kl_qty r = 6%Z.
Proof. eexists. split; [reflexivity|]. repeat split. Qed.

(** Four bars, window 3: the true ranges are 2, 3, 1, 4 and the mean of
    the last three is 8/3. *)
Example fetch_price_and_atr_example :
  exists atr : Q,
    fetch_price_and_atr
      [mkBar 10 8 9; mkBar 12 9 11; mkBar 11 10 10.5; mkBar 14 10 13] 3
      = Ok (PriceAtr (Num 13) (Num atr)) /\
    atr == 8 # 3.
Proof. eexists. split; [reflexivity|]. reflexivity. Qed.

(** Fewer bars than the window: the mean runs over the bars there are. *)
Example fetch_price_and_atr_short :
  exists atr : Q,
    fetch_price_and_atr [mkBar 10 8 9; mkBar 12 9 11] 14
      = Ok (PriceAtr (Num 11) (Num atr)) /\
    atr == 5 # 2.
Proof. eexists. split; [reflexivity|]. reflexivity. Qed.

End Examples.

(** ** Further facts on the arithmetic of the methods *)

Module SizerMoreFacts.

Import Py Sizer PyFacts SizerFacts.



Lemma floor_div_nonneg (n d : Q) :
  0 <= n -> 0 < d -> (0 <= floor (n / d))%Z.
Proof.
  intros Hn Hd. unfold floor.
  assert (H : inject_Z 0 <= n / d).
  { apply Qle_shift_div_l; [assumption|]. now rewrite Qmult_0_l. }
  apply Qfloor_resp_le in H. now rewrite Qfloor_Z in H.
Qed.




(** Equal divisors: [/] raises on both or returns equal quotients. *)
Lemma div_floor_comp (n1 n2 d1 d2 : Q) :
  n1 == n2 -> d1 == d2 ->
  map floor (div n1 d1) = map floor (div n2 d2).
Proof.
  intros Hn Hd. destruct (Qeq_dec d1 0) as [Hz | Hnz].
  - rewrite (div_zero n1 d1 Hz), (div_zero n2 d2);
      [reflexivity | now rewrite <- Hd].
  - rewrite (div_nonzero n1 d1 Hnz), (div_nonzero n2 d2);
      [|now rewrite <- Hd].
    unfold map, floor. cbn [bind]. f_equal.
    apply Qfloor_comp. now rewrite Hn, Hd.
Qed.

Section Account.

Variable self : PositionSizer.


End Account.

End SizerMoreFacts.

(** ** The risk-based methods *)

Module RiskLaws.

Import Py Sizer PyFacts SizerFacts SizerMoreFacts.





(** ATR sizing is fixed-risk sizing at a stop distance of
    atr * multiplier: when the two agree, both methods return the same
    quantity, or both raise. *)
Theorem atr_is_fixed_risk_at_distance
  (self : PositionSizer) (entry stop atr mult riskPct : Q) :
  atr * mult == Qabs (entry - stop) ->
  map at_qty (atr_position_size self atr mult riskPct)
  = map fr_qty (fixed_risk_by_stop self entry stop riskPct).
Proof.
  intros Hdist.
  pose proof (div_floor_comp
                (risk_amount self riskPct - commission_per_trade self)
                (risk_amount self riskPct - commission_per_trade self)
                (atr * mult + slippage_per_share self)
                (Qabs (entry - stop) + slippage_per_share self)
                (Qeq_refl _)) as H.
  unfold atr_position_size, fixed_risk_by_stop, map in *.
  destruct (div _ (atr * mult + _)), (div _ (Qabs _ + _));
    cbn [bind] in *; specialize (H ltac:(now rewrite Hdist));
    try discriminate H.
  - apply Ok_inj in H. now rewrite H.
  - exact H.
Qed.

Lemma atr_is_fixed_risk_at_distance_witness :
  map at_qty (atr_position_size (mkSizer 10000 5 0.25) 2 1.5 0.02)
  = map fr_qty (fixed_risk_by_stop (mkSizer 10000 5 0.25) 100 97 0.02).
Proof.
  apply (atr_is_fixed_risk_at_distance
           (mkSizer 10000 5 0.25) 100 97 2 1.5 0.02).
  reflexivity.
Defined.

End RiskLaws.

(** ** Further facts on the true-range column and its mean *)

Module FetchMoreFacts.

Import Py Pandas Sizer Volatility PyFacts PandasFacts Fetch SizerMoreFacts.

(** Below the first row the true range holds an absolute value. *)
Lemma tr_at_S_nonneg (df : list Bar) (j : nat) : 0 <= tr_at df (S j).
Proof.
  unfold tr_at. cbv zeta.
  apply Qle_trans with (2 := Q.le_max_r _ _). apply Qabs_nonneg.
Qed.


Lemma tr_at_nonneg (b : Bar) (rest : list Bar) (i : nat) :
  Low b <= High b -> 0 <= tr_at (b :: rest) i.
Proof.
  intros H. destruct i as [|j]; [|apply tr_at_S_nonneg].
  unfold tr_at. cbn [nth]. lra.
Qed.


Lemma Qsum_nonneg (l : list Q) :
  (forall x, In x l -> 0 <= x) -> 0 <= Qsum l.
Proof.
  induction l as [|x l IH]; intros H; [apply Qle_refl|].
  cbn [Qsum fold_right]. fold (Qsum l).
  assert (Hx : 0 <= x) by (apply H; now left).
  assert (Hl : 0 <= Qsum l) by (apply IH; intros y Hy; apply H; now right).
  lra.
Qed.

(** A mean over a window of [S k] numbers. *)
Lemma mean_nonneg (s : Q) (k : nat) :
  0 <= s -> 0 <= s / inject_Z (Z.of_nat (S k)).
Proof.
  intros Hs. apply Qle_shift_div_l; [|now rewrite Qmult_0_l].
  change 0 with (inject_Z 0). rewrite <- Zlt_Qlt. lia.
Qed.









(** What the method returns on a frame with rows, with the sign of the
    mean. *)
Lemma fetched_atr_nonneg (b : Bar) (rest : list Bar) (p : Z) :
  (0 < p)%Z ->
  Low b <= High b ->
  exists atr : Q,
    fetch_price_and_atr (b :: rest) p
      = Ok (PriceAtr (Num (Close (last (b :: rest) (mkBar 0 0 0))))
                     (Num atr)) /\
    0 <= atr.
Proof.
  intros Hp Hb.
  eexists. split.
  - apply (fetch_price_and_atr_value (b :: rest) p)
      with (n := length (b :: rest))
           (m := Nat.min (Z.to_nat p) (length (b :: rest)));
      [discriminate | lia | reflexivity | reflexivity].
  - rewrite length_map, length_seq.
    set (m := Nat.min _ _).
    assert (Hm : (1 <= m)%nat) by (unfold m; cbn [length]; lia).
    destruct m as [|k]; [lia|].
    apply mean_nonneg, Qsum_nonneg.
    intros x Hx. apply in_map_iff in Hx. destruct Hx as [i [<- _]].
    now apply tr_at_nonneg.
Qed.


End FetchMoreFacts.

(** ** What the fetched ATR guarantees *)

Module FetchLaws.

Import Py Pandas Sizer Volatility PyFacts PandasFacts Fetch.
Import SizerMoreFacts FetchMoreFacts.

(** The ATR is never negative: on a frame whose first bar has its high at
    or above its low, and for a positive period, the method returns two
    numbers and the second is at least 0.  (The later bars need no such
    condition: their true range contains an absolute value.) *)
Theorem fetch_price_and_atr_nonnegative
  (b : Bar) (rest : list Bar) (atrPeriod : Z) :
  (0 < atrPeriod)%Z ->
  Low b <= High b ->
  exists lastClose atr : Q,
    fetch_price_and_atr (b :: rest) atrPeriod
      = Ok (PriceAtr (Num lastClose) (Num atr)) /\
    0 <= atr.
Proof.
  intros Hp Hb.
  destruct (fetched_atr_nonneg b rest atrPeriod Hp Hb) as [atr [E Ha]].
  exists (Close (last (b :: rest) (mkBar 0 0 0))), atr. now split.
Qed.

Lemma fetch_price_and_atr_nonnegative_witness :
  exists lastClose atr : Q,
    fetch_price_and_atr (mkBar 10 8 9 :: [mkBar 9 12 11; mkBar 11 10 10.5]) 2
      = Ok (PriceAtr (Num lastClose) (Num atr)) /\
    0 <= atr.
Proof.
  apply (fetch_price_and_atr_nonnegative
           (mkBar 10 8 9) [mkBar 9 12 11; mkBar 11 10 10.5] 2);
    [reflexivity | apply Qle_bool_imp_le; reflexivity].
Defined.

(** A period at or beyond the number of bars changes nothing: any two
    such periods give the same result. *)
Theorem fetch_price_and_atr_long_period (df : list Bar) (p1 p2 : Z) :
  (Z.of_nat (length df) <= p1)%Z ->
  (Z.of_nat (length df) <= p2)%Z ->
  fetch_price_and_atr df p1 = fetch_price_and_atr df p2.
Proof.
  intros H1 H2. destruct df as [|b rest]; [reflexivity|].
  cbn [length] in H1, H2.
  rewrite (fetch_price_and_atr_value (b :: rest) p1 ltac:(discriminate)
             ltac:(lia) (length (b :: rest)) (length (b :: rest))
             eq_refl ltac:(cbn [length]; lia)).
  rewrite (fetch_price_and_atr_value (b :: rest) p2 ltac:(discriminate)
             ltac:(lia) (length (b :: rest)) (length (b :: rest))
             eq_refl ltac:(cbn [length]; lia)).
  reflexivity.
Qed.

Lemma fetch_price_and_atr_long_period_witness :
  fetch_price_and_atr [mkBar 10 8 9; mkBar 12 9 11] 2
  = fetch_price_and_atr [mkBar 10 8 9; mkBar 12 9 11] 14.
Proof.
  apply (fetch_price_and_atr_long_period
           [mkBar 10 8 9; mkBar 12 9 11] 2 14); cbn; lia.
Defined.

(** On a frame with rows, a period of zero or less makes the rolling
    window raise [ValueError]; the method returns nothing. *)
Theorem fetch_price_and_atr_bad_period (df : list Bar) (atrPeriod : Z) :
  df <> [] ->
  (atrPeriod <= 0)%Z ->
  fetch_price_and_atr df atrPeriod = Raise ValueError.
Proof.
  intros Hne Hp.
  rewrite (fetch_price_and_atr_rows df atrPeriod Hne).
  unfold rolling_mean. destruct (Z.ltb_spec atrPeriod 1); [reflexivity|lia].
Qed.

Lemma fetch_price_and_atr_bad_period_witness :
  fetch_price_and_atr [mkBar 10 8 9; mkBar 12 9 11] 0 = Raise ValueError.
Proof.
  apply (fetch_price_and_atr_bad_period [mkBar 10 8 9; mkBar 12 9 11] 0);
    [discriminate | lia].
Defined.



End FetchLaws.

(** ** From the fetch to the sizing call *)

Module PageLaws.

Import Py Pandas Sizer Page PyFacts SizerMoreFacts FetchMoreFacts Fetch.









End PageLaws.

(** ** Binary64 arithmetic: rounding keeps doubles within range *)

Module F64Facts.

Import Py F64 Py64 PyFacts.

Lemma iter_pos_nat {A : Type} (f : A -> A) (p : positive) (x : A) :
  iter_pos f p x = Nat.iter (Pos.to_nat p) f x.
Proof.
  revert x. induction p as [p IH | p IH |]; intros x; cbn [iter_pos].
  - rewrite !IH, Pos2Nat.inj_xI.
    replace (S (2 * Pos.to_nat p)) with (Pos.to_nat p + Pos.to_nat p + 1)%nat
      by lia.
    now rewrite !Nat.iter_add.
  - rewrite !IH, Pos2Nat.inj_xO.
    replace (2 * Pos.to_nat p)%nat with (Pos.to_nat p + Pos.to_nat p)%nat
      by lia.
    now rewrite Nat.iter_add.
  - reflexivity.
Qed.

Lemma Pos_iter_nat {A : Type} (f : A -> A) (p : positive) (x : A) :
  Pos.iter f x p = Nat.iter (Pos.to_nat p) f x.
Proof. apply Pos2Nat.inj_iter. Qed.

Lemma digits_shift (m : positive) (n : nat) :
  Zpos (digits2_pos (Nat.iter n xO m)) = (Zpos (digits2_pos m) + Z.of_nat n)%Z.
Proof.
  induction n as [|n IH]; [cbn; lia|].
  rewrite Nat.iter_succ. cbn [digits2_pos]. lia.
Qed.

Lemma Zpos_shift (m : positive) (n : nat) :
  Zpos (Nat.iter n xO m) = (Zpos m * 2 ^ Z.of_nat n)%Z.
Proof.
  induction n as [|n IH]; [cbn; lia|].
  rewrite Nat.iter_succ, Pos2Z.inj_xO, IH, Nat2Z.inj_succ, Z.pow_succ_r by lia.
  ring.
Qed.

Lemma digits_le (a b : positive) :
  (a <= b)%positive -> (digits2_pos a <= digits2_pos b)%positive.
Proof.
  revert b. induction a as [a IH | a IH |]; intros [b | b |] H;
    cbn [digits2_pos]; try lia.
  - specialize (IH b). lia.
  - specialize (IH b). lia.
  - specialize (IH b). lia.
  - specialize (IH b). lia.
Qed.

Lemma shr_m_of_loc (m : Z) (l : location) :
  shr_m (shr_record_of_loc m l) = m.
Proof. destruct l as [|[]]; reflexivity. Qed.

Lemma digits_shr_1 (mrs : shr_record) :
  Zdigits2 (shr_m (shr_1 mrs)) = Z.max 0 (Zdigits2 (shr_m mrs) - 1).
Proof.
  destruct mrs as [m r s]. destruct m as [|[p|p|]|[p|p|]];
    cbn [shr_1 shr_m Zdigits2 digits2_pos]; rewrite ?Pos2Z.inj_succ; lia.
Qed.

Lemma digits_nonneg (m : Z) : (0 <= Zdigits2 m)%Z.
Proof. destruct m; cbn; lia. Qed.

Lemma digits_shr_iter (n : nat) (mrs : shr_record) :
  Zdigits2 (shr_m (Nat.iter n shr_1 mrs))
  = Z.max 0 (Zdigits2 (shr_m mrs) - Z.of_nat n).
Proof.
  induction n as [|n IH].
  - change (Nat.iter 0 shr_1 mrs) with mrs.
    pose proof (digits_nonneg (shr_m mrs)). lia.
  - rewrite Nat.iter_succ, digits_shr_1, IH. lia.
Qed.

Lemma shr_iter_exact (n : nat) (m : positive) :
  Nat.iter n shr_1 (Build_shr_record (Zpos (Nat.iter n xO m)) false false)
  = Build_shr_record (Zpos m) false false.
Proof.
  induction n as [|n IH]; [reflexivity|].
  rewrite Nat.iter_succ_r. rewrite (Nat.iter_succ n). cbn [shr_1 orb].
  exact IH.
Qed.

(** A rounded mantissa has at most 53 bits. *)
Lemma shr_fexp_digits (m e : Z) (l : location) :
  (Zdigits2 (shr_m (fst (shr_fexp prec emax m e l))) <= 53)%Z.
Proof.
  unfold shr_fexp, shr.
  rewrite <- (shr_m_of_loc m l) at 1.
  set (rec := shr_record_of_loc m l).
  assert (Hd : Zdigits2 (shr_m rec) = Zdigits2 m)
    by (unfold rec; now rewrite shr_m_of_loc).
  rewrite Hd.
  destruct (fexp prec emax (Zdigits2 m + e) - e)%Z as [|p|p] eqn:E;
    cbn [fst]; unfold fexp, emin, prec, emax in E.
  - lia.
  - rewrite iter_pos_nat, digits_shr_iter, Hd. lia.
  - lia.
Qed.

Lemma binary_round_aux_bounded (sx : bool) (mx ex : Z) (lx : location)
  (s : bool) (m : positive) (e : Z) :
  binary_round_aux prec emax sx mx ex lx = S754_finite s m e ->
  s = sx /\ (Zpos (digits2_pos m) <= 53)%Z /\ (e <= 971)%Z.
Proof.
  unfold binary_round_aux.
  destruct (shr_fexp prec emax mx ex lx) as [mrs' e'].
  pose proof (shr_fexp_digits
                (round_nearest_even (shr_m mrs') (loc_of_shr_record mrs'))
                e' loc_Exact) as Hd.
  destruct (shr_fexp prec emax _ e' loc_Exact) as [mrs'' e''].
  cbn [fst] in Hd.
  destruct (shr_m mrs'') as [|p|p] eqn:Em; try discriminate.
  destruct (Z.leb_spec e'' (emax - prec)); [|discriminate].
  intros [= <- <- <-]. cbn [Zdigits2] in Hd. unfold emax, prec in *.
  split; [reflexivity | lia].
Qed.


(** A mantissa of exactly 53 bits at an exponent in range is left alone
    by the rounding. *)
Lemma binary_round_aux_canonical (s : bool) (m : positive) (e : Z) :
  Zpos (digits2_pos m) = 53%Z -> (-1074 <= e <= 971)%Z ->
  binary_round_aux prec emax s (Zpos m) e loc_Exact = S754_finite s m e.
Proof.
  intros Hd He.
  assert (Hshr : shr_fexp prec emax (Zpos m) e loc_Exact
                 = (Build_shr_record (Zpos m) false false, e)).
  { unfold shr_fexp, shr. cbn [Zdigits2 shr_record_of_loc]. rewrite Hd.
    replace (fexp prec emax (53 + e) - e)%Z with 0%Z
      by (unfold fexp, emin, prec, emax; lia).
    reflexivity. }
  unfold binary_round_aux. rewrite Hshr.
  cbn [shr_m loc_of_shr_record round_nearest_even]. rewrite Hshr.
  cbn [shr_m].
  destruct (Z.leb_spec e (emax - prec)); [reflexivity|].
  unfold emax, prec in *. lia.
Qed.

(** A 53-bit mantissa followed by [k] zero bits rounds to itself at
    exponent [k]. *)
Lemma binary_round_aux_exact (s : bool) (m : positive) (k : nat) :
  Zpos (digits2_pos m) = 53%Z -> (Z.of_nat k <= 971)%Z ->
  binary_round_aux prec emax s (Zpos (Nat.iter k xO m)) 0 loc_Exact
  = S754_finite s m (Z.of_nat k).
Proof.
  intros Hd Hk. destruct k as [|k].
  { now apply binary_round_aux_canonical. }
  assert (Hshr : shr_fexp prec emax (Zpos (Nat.iter (S k) xO m)) 0 loc_Exact
                 = (Build_shr_record (Zpos m) false false, Z.of_nat (S k))).
  { unfold shr_fexp, shr. cbn [Zdigits2 shr_record_of_loc].
    rewrite digits_shift, Hd.
    replace (fexp prec emax (53 + Z.of_nat (S k) + 0) - 0)%Z
      with (Zpos (Pos.of_succ_nat k))
      by (unfold fexp, emin, prec, emax; lia).
    rewrite iter_pos_nat, SuccNat2Pos.id_succ, shr_iter_exact.
    reflexivity. }
  unfold binary_round_aux. rewrite Hshr.
  cbn [shr_m loc_of_shr_record round_nearest_even].
  assert (Hshr2 : shr_fexp prec emax (Zpos m) (Z.of_nat (S k)) loc_Exact
                  = (Build_shr_record (Zpos m) false false, Z.of_nat (S k))).
  { unfold shr_fexp, shr. cbn [Zdigits2 shr_record_of_loc]. rewrite Hd.
    replace (fexp prec emax (53 + Z.of_nat (S k)) - Z.of_nat (S k))%Z
      with 0%Z by (unfold fexp, emin, prec, emax; lia).
    reflexivity. }
  rewrite Hshr2. cbn [shr_m].
  destruct (Z.leb_spec (Z.of_nat (S k)) (emax - prec)); [reflexivity|].
  unfold emax, prec in *. lia.
Qed.

(** The double nearest to a positive integer of at most 53 significant
    bits below [2^1024] is finite. *)
Lemma of_Z_shifted_finite (m : positive) (n : nat) :
  (Zpos (digits2_pos m) <= 53)%Z ->
  (Zpos (digits2_pos m) + Z.of_nat n <= 1024)%Z ->
  is_finite (of_Z (Zpos (Nat.iter n xO m))) = true.
Proof.
  intros Hm Hn.
  unfold of_Z, binary_normalize, binary_round.
  set (P := Nat.iter n xO m).
  assert (HD : Zpos (digits2_pos P) = (Zpos (digits2_pos m) + Z.of_nat n)%Z)
    by apply digits_shift.
  assert (Hf : fexp prec emax (Zpos (digits2_pos P) + 0)
               = (Zpos (digits2_pos P) - 53)%Z)
    by (unfold fexp, emin, prec, emax; lia).
  rewrite Hf. unfold shl_align.
  destruct (Zpos (digits2_pos P) - 53 - 0)%Z as [|t|t] eqn:Et.
  - rewrite binary_round_aux_canonical; [reflexivity | lia | lia].
  - (* more than 53 bits: the low [t] bits are zero *)
    set (k := Pos.to_nat t).
    assert (Hk : (k <= n)%nat) by (unfold k; lia).
    assert (HP : P = Nat.iter k xO (Nat.iter (n - k) xO m)).
    { unfold P. rewrite <- Nat.iter_add. f_equal. lia. }
    rewrite HP, binary_round_aux_exact; [reflexivity | | unfold k; lia].
    rewrite digits_shift. unfold k. lia.
  - rewrite Pos_iter_nat, binary_round_aux_canonical; [reflexivity | | lia].
    rewrite digits_shift. lia.
Qed.

Lemma of_Z_small_finite (k : positive) :
  (Zpos (digits2_pos k) <= 53)%Z -> is_finite (of_Z (Zpos k)) = true.
Proof.
  intros H. apply (of_Z_shifted_finite k 0); [exact H | lia].
Qed.


Lemma int_to_float_finite (n : Z) :
  is_finite (of_Z n) = true -> int_to_float n = Ok (of_Z n).
Proof.
  unfold int_to_float. destruct (of_Z n); try reflexivity; discriminate.
Qed.

Lemma Qfloor_finite_value_neg (m : positive) (e : Z) :
  (Qfloor (finite_value true m e) <= 0)%Z.
Proof.
  unfold finite_value. cbn [cond_Zopp]. destruct e as [|p|p].
  - rewrite Qfloor_Z. lia.
  - rewrite Qfloor_Z. lia.
  - cbn [Qfloor]. apply Z.div_le_upper_bound; lia.
Qed.

(** The floor of a double, clamped at zero, converts back to a double. *)
Lemma floor_convertible (s : bool) (m : positive) (e k : Z) :
  (Zpos (digits2_pos m) <= 53)%Z -> (e <= 971)%Z ->
  floor (S754_finite s m e) = Ok k ->
  int_to_float (imax k 0) = Ok (of_Z (imax k 0)).
Proof.
  intros Hm He Hk. apply Ok_inj in Hk. subst k.
  apply int_to_float_finite. rewrite PyFacts.imax_Zmax.
  destruct s.
  { pose proof (Qfloor_finite_value_neg m e).
    rewrite Z.max_r by lia. reflexivity. }
  unfold finite_value. cbn [cond_Zopp]. destruct e as [|p|p].
  - rewrite Qfloor_Z, Z.max_l by lia.
    replace (Zpos m * 2 ^ 0)%Z with (Zpos m) by lia.
    now apply of_Z_small_finite.
  - rewrite Qfloor_Z, Z.max_l by lia.
    rewrite <- (positive_nat_Z p), <- Zpos_shift.
    apply of_Z_shifted_finite; lia.
  - cbn [Qfloor].
    assert (H0 : (0 <= Zpos m / Zpos (2 ^ p))%Z)
      by (apply Z.div_pos; lia).
    assert (Hle : (Zpos m / Zpos (2 ^ p) <= Zpos m)%Z).
    { apply Z.div_le_upper_bound; [lia|]. nia. }
    rewrite Z.max_l by exact H0.
    destruct (Zpos m / Zpos (2 ^ p))%Z as [|q|q]; [reflexivity| |lia].
    apply of_Z_small_finite.
    pose proof (digits_le q m ltac:(lia)). lia.
Qed.

(** A finite quotient is a bounded double. *)
Lemma div_bounded (a b : float) (s : bool) (m : positive) (e : Z) :
  div a b = S754_finite s m e ->
  (Zpos (digits2_pos m) <= 53)%Z /\ (e <= 971)%Z.
Proof.
  unfold div, SFdiv.
  destruct a as [sa | sa | | sa ma ea], b as [sb | sb | | sb mb eb];
    try discriminate.
  destruct (SFdiv_core_binary prec emax (Zpos ma) ea (Zpos mb) eb)
    as [[mz ez] lz].
  intros H. now apply binary_round_aux_bounded in H.
Qed.

(** [qty * entry_price] never overflows in the conversion of [qty]: the
    floor of a quotient is a double's worth of integer. *)
Lemma imul_floor_div (a b x : float) (k : Z) :
  floor (div a b) = Ok k ->
  imul (imax k 0) x = Ok (mul (of_Z (imax k 0)) x).
Proof.
  intros Hk. unfold imul.
  assert (H : int_to_float (imax k 0) = Ok (of_Z (imax k 0))).
  { destruct (div a b) as [s | s | | s m e] eqn:E; try discriminate Hk.
    - apply Ok_inj in Hk. subst k. reflexivity.
    - destruct (div_bounded a b s m e E) as [Hm He].
      exact (floor_convertible s m e k Hm He Hk). }
  now rewrite H.
Qed.

Lemma floor_finite (x : float) :
  is_finite x = true -> exists k : Z, floor x = Ok k.
Proof. destruct x; try discriminate; intros _; eexists; reflexivity. Qed.

Lemma floor_returns_finite (x : float) (k : Z) :
  floor x = Ok k -> is_finite x = true.
Proof. destruct x; try discriminate; reflexivity. Qed.

Lemma truediv_nonzero (a b : float) :
  is_zero b = false -> truediv a b = Ok (div a b).
Proof. intros H. unfold truediv. now rewrite H. Qed.

Lemma truediv_zero (a b : float) :
  is_zero b = true -> truediv a b = Raise ZeroDivisionError.
Proof. intros H. unfold truediv. now rewrite H. Qed.

Lemma ltb_zero_nonzero (x : float) : ltb zero x = true -> is_zero x = false.
Proof. destruct x; try reflexivity. discriminate. Qed.

Lemma ltb_nonzero_zero (x : float) : ltb x zero = true -> is_zero x = false.
Proof. destruct x; try reflexivity. discriminate. Qed.

End F64Facts.

(** ** The sizing methods on doubles: what each call evaluates to *)

Module Sizer64Facts.

Import Py F64 Py64 Sizer64 PyFacts F64Facts.

Section Account.

Variable self : PositionSizer.

(** After the division, a call either passes on what [math.floor] raises
    or returns the tuple built from the floor; the conversion of the
    quantity back to a float in [qty * entry_price] raises nothing. *)
Lemma fixed_risk_by_stop_eval (e s p : float) :
  let trade_risk := add (abs (sub e s)) (slippage_per_share self) in
  let risk_amt := mul (account_balance self) p in
  fixed_risk_by_stop self e s p =
  if is_zero trade_risk then Raise ZeroDivisionError
  else
    match floor (div (sub risk_amt (commission_per_trade self)) trade_risk) with
    | Raise err => Raise err
    | Ok k =>
        Ok (mkFixedRisk (Z.max k 0)
              (add (mul (of_Z (Z.max k 0)) e) (commission_per_trade self))
              risk_amt trade_risk)
    end.
Proof.
  cbv zeta. unfold fixed_risk_by_stop, risk_amount, truediv.
  destruct (is_zero _); [reflexivity|]. cbn [bind].
  destruct (floor _) as [k | err] eqn:Ek; [|reflexivity]. cbn [bind].
  rewrite (imul_floor_div _ _ e k Ek). cbn [bind].
  now rewrite imax_Zmax.
Qed.

Lemma percent_of_portfolio_eval (e a : float) :
  let position_value := mul (account_balance self) a in
  percent_of_portfolio self e a =
  if is_zero e then Raise ZeroDivisionError
  else
    match floor (div (sub position_value (commission_per_trade self)) e) with
    | Raise err => Raise err
    | Ok k =>
        Ok (mkPortfolio (Z.max k 0)
              (add (mul (of_Z (Z.max k 0)) e) (commission_per_trade self))
              position_value)
    end.
Proof.
  cbv zeta. unfold percent_of_portfolio, truediv.
  destruct (is_zero _); [reflexivity|]. cbn [bind].
  destruct (floor _) as [k | err] eqn:Ek; [|reflexivity]. cbn [bind].
  rewrite (imul_floor_div _ _ e k Ek). cbn [bind].
  now rewrite imax_Zmax.
Qed.

Lemma atr_position_size_eval (a m p : float) :
  let trade_risk := add (mul a m) (slippage_per_share self) in
  let risk_amt := mul (account_balance self) p in
  atr_position_size self a m p =
  if is_zero trade_risk then Raise ZeroDivisionError
  else
    match floor (div (sub risk_amt (commission_per_trade self)) trade_risk) with
    | Raise err => Raise err
    | Ok k => Ok (mkAtrSize (Z.max k 0) risk_amt trade_risk)
    end.
Proof.
  cbv zeta. unfold atr_position_size, risk_amount, truediv.
  destruct (is_zero _); [reflexivity|]. cbn [bind].
  destruct (floor _) as [k | err]; [|reflexivity]. cbn [bind].
  now rewrite imax_Zmax.
Qed.

Lemma kelly_position_size_eval (e W R f : float) :
  let raw_kelly := sub W (div (sub one W) R) in
  let kelly_used := mul (max raw_kelly zero) f in
  let position_value := mul (account_balance self) kelly_used in
  kelly_position_size self e W R f =
  if is_zero R then Raise ZeroDivisionError
  else if is_zero e then Raise ZeroDivisionError
  else
    match floor (div (sub position_value (commission_per_trade self)) e) with
    | Raise err => Raise err
    | Ok k => Ok (mkKelly (Z.max k 0) raw_kelly kelly_used position_value)
    end.
Proof.
  cbv zeta. unfold kelly_position_size, truediv.
  destruct (is_zero R); [reflexivity|]. cbn [bind].
  destruct (is_zero e); [reflexivity|]. cbn [bind].
  destruct (floor _) as [k | err]; [|reflexivity]. cbn [bind].
  now rewrite imax_Zmax.
Qed.

End Account.

(** [math.floor] raises [OverflowError] or [ValueError], nothing else. *)
Lemma floor_raises (x : float) (err : exn) :
  floor x = Raise err -> err = OverflowError \/ err = ValueError.
Proof.
  destruct x; try discriminate; intros [= <-]; [now left | now right].
Qed.


End Sizer64Facts.

(** ** [fixed_risk_by_stop] on doubles *)

Module FixedRisk64.

Import Py F64 Py64 Sizer64 PyFacts F64Facts Sizer64Facts.

Local Open Scope Q_scope.

(** C1.  In double precision, whenever the risk per share is positive
    and the quotient (riskAmount - commission) / riskPerShare is finite,
    [fixed_risk_by_stop] returns riskPerShare = |entry - stop| +
    slippage, riskAmount = balance * riskPct, quantity =
    max(floor(quotient), 0) and cost = quantity * entry + commission,
    each operation rounded as Python rounds it.  On balance 10000,
    commission 0, slippage 0, entry 100, stop 95 and riskPct 0.02 this
    is riskAmount 200.0, riskPerShare 5.0, quantity 40 and cost
    4000.0. *)
Theorem fixed_risk_by_stop_formula :
  (forall (self : PositionSizer) (entry stop riskPct : float),
      let riskPerShare :=
        add (abs (sub entry stop)) (slippage_per_share self) in
      let riskAmount := mul (account_balance self) riskPct in
      let quotient :=
        div (sub riskAmount (commission_per_trade self)) riskPerShare in
      ltb zero riskPerShare = true ->
      is_finite quotient = true ->
      exists (r : FixedRisk) (k : Z),
        fixed_risk_by_stop self entry stop riskPct = Ok r /\
        fr_trade_risk r = riskPerShare /\
        fr_risk_amt r = riskAmount /\
        floor quotient = Ok k /\
        fr_qty r = Z.max k 0 /\
        fr_cost r
          = add (mul (of_Z (fr_qty r)) entry) (commission_per_trade self))
  /\
  (exists r : FixedRisk,
      fixed_risk_by_stop (mkSizer (of_Z 10000) zero zero)
        (of_Z 100) (of_Z 95) (dec 2 2) = Ok r /\
      fr_risk_amt r = of_Z 200 /\ fr_trade_risk r = of_Z 5 /\
      fr_qty r = 40%Z /\ fr_cost r = of_Z 4000).
Proof.
  split.
  - intros self entry stop riskPct riskPerShare riskAmount quotient Hpos Hfin.
    destruct (floor_finite quotient Hfin) as [k Hk].
    pose proof (fixed_risk_by_stop_eval self entry stop riskPct) as E.
    cbv zeta in E. fold riskPerShare riskAmount quotient in E.
    rewrite (ltb_zero_nonzero _ Hpos), Hk in E.
    eexists. exists k. split; [exact E|]. cbn [fr_qty fr_cost fr_risk_amt
      fr_trade_risk]. repeat split. exact Hk.
  - eexists. split; [vm_compute; reflexivity|]. repeat split.
Qed.

Lemma fixed_risk_by_stop_formula_witness :
  exists (r : FixedRisk) (k : Z),
    fixed_risk_by_stop (mkSizer (of_Z 10000) (of_Z 1) zero)
      (dec 1025 2) (dec 726 2) (div (of_Z 3) (of_Z 100)) = Ok r /\
    fr_trade_risk r
      = add (abs (sub (dec 1025 2) (dec 726 2))) zero /\
    fr_risk_amt r = mul (of_Z 10000) (div (of_Z 3) (of_Z 100)) /\
    floor (div (sub (mul (of_Z 10000) (div (of_Z 3) (of_Z 100))) (of_Z 1))
               (add (abs (sub (dec 1025 2) (dec 726 2))) zero)) = Ok k /\
    fr_qty r = Z.max k 0 /\
    fr_cost r = add (mul (of_Z (fr_qty r)) (dec 1025 2)) (of_Z 1).
Proof.
  apply (proj1 fixed_risk_by_stop_formula
           (mkSizer (of_Z 10000) (of_Z 1) zero)
           (dec 1025 2) (dec 726 2) (div (of_Z 3) (of_Z 100)));
    vm_compute; reflexivity.
Defined.




End FixedRisk64.

(** ** The other methods on doubles *)

Module Sizing64.

Import Py F64 Py64 Sizer64 PyFacts F64Facts Sizer64Facts.

(** C5, as the code has it.  [percent_of_portfolio] does not test the
    entry price.  With entry price 0.0 (or -0.0) the division raises
    Python's [ZeroDivisionError].  With a negative entry price the
    division is carried out: the only errors left are those of
    [math.floor] on a quotient that is not finite, and on a finite
    quotient the method returns targetValue = balance * allocationPct,
    quantity = max(floor(quotient), 0) and cost = quantity * entryPrice +
    commission, in double precision. *)
Theorem percent_of_portfolio_nonpositive_entry
  (self : PositionSizer) (entry allocationPct : float) :
  leb entry zero = true ->
  (is_zero entry = true /\
   percent_of_portfolio self entry allocationPct = Raise ZeroDivisionError)
  \/
  (ltb entry zero = true /\
   let targetValue := mul (account_balance self) allocationPct in
   let quotient :=
     div (sub targetValue (commission_per_trade self)) entry in
   (forall err : exn,
       percent_of_portfolio self entry allocationPct = Raise err ->
       err = OverflowError \/ err = ValueError) /\
   (is_finite quotient = true ->
    exists (r : Portfolio) (k : Z),
      percent_of_portfolio self entry allocationPct = Ok r /\
      pf_position_value r = targetValue /\
      floor quotient = Ok k /\
      pf_qty r = Z.max k 0 /\
      pf_cost r
        = add (mul (of_Z (pf_qty r)) entry) (commission_per_trade self))).
Proof.
  intros Hle.
  pose proof (percent_of_portfolio_eval self entry allocationPct) as E.
  cbv zeta in E.
  destruct (is_zero entry) eqn:Hz.
  - left. now split.
  - right.
    assert (Hlt : ltb entry zero = true).
    { destruct entry as [s | [] | | [] m e]; try discriminate;
        reflexivity. }
    split; [exact Hlt|]. cbv zeta. split.
    + intros err Herr. rewrite Herr in E.
      destruct (floor _) as [k | err'] eqn:Ek; [discriminate E|].
      injection E as ->. exact (floor_raises _ _ Ek).
    + intros Hfin. destruct (floor_finite _ Hfin) as [k Hk].
      rewrite Hk in E. eexists. exists k. split; [exact E|].
      cbn [pf_qty pf_cost pf_position_value]. repeat split. exact Hk.
Qed.

Lemma percent_of_portfolio_nonpositive_entry_witness :
  ltb (dec (-32) 1) zero = true /\
  exists (r : Portfolio) (k : Z),
    percent_of_portfolio (mkSizer (of_Z 10000) (of_Z 800) zero)
      (dec (-32) 1) (div (of_Z 4) (of_Z 100)) = Ok r /\
    floor (div (sub (mul (of_Z 10000) (div (of_Z 4) (of_Z 100))) (of_Z 800))
               (dec (-32) 1)) = Ok k /\
    pf_qty r = Z.max k 0 /\
    pf_qty r = 125%Z.
Proof.
  destruct (percent_of_portfolio_nonpositive_entry
              (mkSizer (of_Z 10000) (of_Z 800) zero)
              (dec (-32) 1) (div (of_Z 4) (of_Z 100))
              ltac:(vm_compute; reflexivity))
    as [[Hz _] | [Hlt [_ H]]]; [discriminate Hz|].
  split; [exact Hlt|].
  destruct (H ltac:(vm_compute; reflexivity)) as [r [k [E [_ [Hk [Hq _]]]]]].
  exists r, k. repeat split; try assumption.
  rewrite Hq. vm_compute in Hk. apply Ok_inj in Hk. now subst k.
Defined.

(** C5, as stated, fails: with balance 10000, no commission, allocation
    0.125 and entry price -50.0 the call raises nothing and returns
    quantity 0, cost 0.0 and target value 1250.0. *)
Lemma percent_of_portfolio_nonpositive_entry_counterexample :
  leb (of_Z (-50)) zero = true /\
  percent_of_portfolio (mkSizer (of_Z 10000) zero zero)
    (of_Z (-50)) (dec 125 3)
  = Ok (mkPortfolio 0 zero (of_Z 1250)).
Proof. split; vm_compute; reflexivity. Qed.



(** Each method raises [ZeroDivisionError] exactly when one of the
    divisors it computes is the double zero: the risk per share, the
    entry price, the risk per unit, and for Kelly the win/loss ratio or
    the entry price. *)
Theorem sizing_raises_iff_zero_divisor (self : PositionSizer) :
  (forall entry stop riskPct : float,
      fixed_risk_by_stop self entry stop riskPct = Raise ZeroDivisionError
      <-> is_zero (add (abs (sub entry stop)) (slippage_per_share self))
          = true) /\
  (forall entry alloc : float,
      percent_of_portfolio self entry alloc = Raise ZeroDivisionError
      <-> is_zero entry = true) /\
  (forall atr mult riskPct : float,
      atr_position_size self atr mult riskPct = Raise ZeroDivisionError
      <-> is_zero (add (mul atr mult) (slippage_per_share self)) = true) /\
  (forall entry winRate winLossRatio fraction : float,
      kelly_position_size self entry winRate winLossRatio fraction
        = Raise ZeroDivisionError
      <-> is_zero winLossRatio = true \/ is_zero entry = true).
Proof.
  assert (Hfloor : forall (A : Type) (x : float) (f : Z -> A),
             match floor x with
             | Ok k => Ok (f k)
             | Raise err => Raise err
             end <> Raise ZeroDivisionError).
  { intros A x f H. destruct (floor x) as [k | err] eqn:Ek;
      [discriminate H|].
    injection H as ->.
    destruct (floor_raises _ _ Ek); discriminate. }
  repeat split.
  - rewrite fixed_risk_by_stop_eval. cbv zeta.
    destruct (is_zero _); [reflexivity|]. intros H. now apply Hfloor in H.
  - intros Hz. rewrite fixed_risk_by_stop_eval. cbv zeta. now rewrite Hz.
  - rewrite percent_of_portfolio_eval. cbv zeta.
    destruct (is_zero _); [reflexivity|]. intros H. now apply Hfloor in H.
  - intros Hz. rewrite percent_of_portfolio_eval. cbv zeta. now rewrite Hz.
  - rewrite atr_position_size_eval. cbv zeta.
    destruct (is_zero _); [reflexivity|]. intros H. now apply Hfloor in H.
  - intros Hz. rewrite atr_position_size_eval. cbv zeta. now rewrite Hz.
  - rewrite kelly_position_size_eval. cbv zeta.
    destruct (is_zero winLossRatio); [now left|].
    destruct (is_zero entry); [now right|].
    intros H. now apply Hfloor in H.
  - rewrite kelly_position_size_eval. cbv zeta.
    intros [Hz | Hz]; rewrite Hz; [reflexivity|].
    now destruct (is_zero winLossRatio).
Qed.

End Sizing64.

(** ** The Kelly method on doubles *)

Module Kelly64.

Import Py F64 Py64 Sizer64 PyFacts F64Facts Sizer64Facts.

(** [max(raw, 0.0)] of a raw fraction that is not above zero is a
    zero. *)
Lemma max_nonpositive_zero (x : float) :
  leb x zero = true -> is_zero (max x zero) = true.
Proof.
  destruct x as [s | [] | | [] m e]; try discriminate; reflexivity.
Qed.

Lemma mul_zero_l (z f : float) :
  is_zero z = true -> is_finite f = true -> is_zero (mul z f) = true.
Proof.
  destruct z; try discriminate. destruct f; try discriminate; reflexivity.
Qed.

Lemma mul_zero_r (f z : float) :
  is_finite f = true -> is_zero z = true -> is_zero (mul f z) = true.
Proof.
  destruct z; try discriminate. destruct f; try discriminate; reflexivity.
Qed.

(** A zero less a non-negative amount, over a positive price, floors to
    at most zero. *)
Lemma floor_zero_minus_fee (z c e : float) (k : Z) :
  is_zero z = true ->
  is_finite c = true -> leb zero c = true ->
  ltb zero e = true ->
  floor (div (sub z c) e) = Ok k -> (k <= 0)%Z.
Proof.
  intros Hz Hc Hc0 He Hk.
  destruct z as [sz | | |]; try discriminate.
  destruct c as [sc | | | [] mc ec]; try discriminate;
    destruct e as [| [] | | [] me ee]; try discriminate.
  - destruct sz, sc; apply Ok_inj in Hk; cbn in Hk; lia.
  - destruct sz, sc; apply Ok_inj in Hk; cbn in Hk; lia.
  - apply Ok_inj in Hk; cbn in Hk; lia.
  - destruct (div (sub (S754_zero sz) (S754_finite false mc ec))
                  (S754_finite false me ee)) as [s | s | | s m x] eqn:E;
      try discriminate Hk.
    + apply Ok_inj in Hk. lia.
    + unfold div, sub, SFsub, SFdiv in E. cbn [negb xorb] in E.
      destruct (SFdiv_core_binary prec emax (Zpos mc) ec (Zpos me) ee)
        as [[mz ez] lz].
      apply binary_round_aux_bounded in E. destruct E as [-> _].
      apply Ok_inj in Hk. subst k. apply Qfloor_finite_value_neg.
Qed.

(** No edge, no position: when the raw Kelly fraction the method computes
    is not above zero, the fraction of Kelly, the balance and the
    commission are finite, the commission is not negative and the entry
    price is positive, then whenever [kelly_position_size] returns, the
    used fraction and the position value are zero and the quantity is
    0. *)
Theorem kelly_position_size_no_edge
  (self : PositionSizer) (entry winRate winLossRatio fraction : float)
  (r : Kelly) :
  leb (sub winRate (div (sub one winRate) winLossRatio)) zero = true ->
  is_finite fraction = true ->
  is_finite (account_balance self) = true ->
  is_finite (commission_per_trade self) = true ->
  leb zero (commission_per_trade self) = true ->
  ltb zero entry = true ->
  kelly_position_size self entry winRate winLossRatio fraction = Ok r ->
  is_zero (kl_kelly_used r) = true /\
  is_zero (kl_position_value r) = true /\
  kl_qty r = 0%Z.
Proof.
  intros Hraw Hf Hb Hc Hc0 He Hcall.
  rewrite kelly_position_size_eval in Hcall. cbv zeta in Hcall.
  destruct (is_zero winLossRatio); [discriminate Hcall|].
  destruct (is_zero entry); [discriminate Hcall|].
  destruct (floor _) as [k | err] eqn:Ek; [|discriminate Hcall].
  apply Ok_inj in Hcall. subst r.
  cbn [kl_qty kl_kelly_used kl_position_value].
  pose proof (mul_zero_l _ fraction (max_nonpositive_zero _ Hraw) Hf) as Hu.
  pose proof (mul_zero_r (account_balance self) _ Hb Hu) as Hv.
  repeat split; [exact Hu | exact Hv |].
  pose proof (floor_zero_minus_fee _ _ _ k Hv Hc Hc0 He Ek). lia.
Qed.

Lemma kelly_position_size_no_edge_witness :
  exists r : Kelly,
    kelly_position_size (mkSizer (of_Z 10000) (of_Z 1) zero)
      (of_Z 100) (dec 25 2) (dec 15 1) (dec 5 1) = Ok r /\
    is_zero (kl_kelly_used r) = true /\
    is_zero (kl_position_value r) = true /\
    kl_qty r = 0%Z.
Proof.
  eexists. split; [vm_compute; reflexivity|].
  apply (kelly_position_size_no_edge (mkSizer (of_Z 10000) (of_Z 1) zero)
           (of_Z 100) (dec 25 2) (dec 15 1) (dec 5 1));
    vm_compute; reflexivity.
Defined.

(** Kelly sizing is percent-of-portfolio sizing at the used Kelly
    fraction the method itself computes: with a non-zero win/loss ratio,
    [kelly_position_size] and [percent_of_portfolio] called with
    allocation max(rawKelly, 0.0) * fraction (the rounded product) give
    the same quantity and position value, or raise the same error. *)
Theorem kelly_is_portfolio_at_used_fraction
  (self : PositionSizer) (entry winRate winLossRatio fraction : float) :
  is_zero winLossRatio = false ->
  map (fun r => (kl_qty r, kl_position_value r))
      (kelly_position_size self entry winRate winLossRatio fraction)
  = map (fun r => (pf_qty r, pf_position_value r))
        (percent_of_portfolio self entry
           (mul (max (sub winRate (div (sub one winRate) winLossRatio)) zero)
                fraction)).
Proof.
  intros HR.
  rewrite kelly_position_size_eval, percent_of_portfolio_eval.
  cbv zeta. rewrite HR.
  destruct (is_zero entry); [reflexivity|].
  destruct (floor _); reflexivity.
Qed.

Lemma kelly_is_portfolio_at_used_fraction_witness :
  map (fun r => (kl_qty r, kl_position_value r))
      (kelly_position_size (mkSizer (dec 1234567 2) (of_Z 1) zero)
         (dec 32 1) (dec 46875 5) (of_Z 3) (dec 75 2))
  = map (fun r => (pf_qty r, pf_position_value r))
        (percent_of_portfolio (mkSizer (dec 1234567 2) (of_Z 1) zero)
           (dec 32 1)
           (mul (max (sub (dec 46875 5)
                          (div (sub one (dec 46875 5)) (of_Z 3))) zero)
                (dec 75 2))).
Proof.
  apply (kelly_is_portfolio_at_used_fraction
           (mkSizer (dec 1234567 2) (of_Z 1) zero)
           (dec 32 1) (dec 46875 5) (of_Z 3) (dec 75 2)).
  reflexivity.
Defined.

End Kelly64.

(** ** Worked examples in double precision *)

Module Examples64.

Import Py F64 Py64 Sizer64.

(** Rounding decides the share count: 10.25 - 7.05 is the double 3.2 and
    400.0 / 3.2 rounds to 125.0, where the quotient of the exact values
    of the two doubles lies just below 125. *)
Example fixed_risk_by_stop_rounds :
  fixed_risk_by_stop (mkSizer (of_Z 10000) zero zero)
    (dec 1025 2) (dec 705 2) (div (of_Z 4) (of_Z 100))
  = Ok (mkFixedRisk 125 (dec 128125 2) (of_Z 400) (dec 32 1)).
Proof. vm_compute. reflexivity. Qed.

(** Here the rounding goes the other way: 10.25 - 7.26 is a double just
    above 2.99, and 299.0 divided by it is 99.99999999999999, which
    floors to 99. *)
Example fixed_risk_by_stop_rounds_down :
  exists r : FixedRisk,
    fixed_risk_by_stop (mkSizer (of_Z 10000) (of_Z 1) zero)
      (dec 1025 2) (dec 726 2) (div (of_Z 3) (of_Z 100)) = Ok r /\
    fr_qty r = 99%Z /\ fr_risk_amt r = of_Z 300.
Proof. eexists. split; [vm_compute; reflexivity|]. split; reflexivity. Qed.

Example percent_of_portfolio_example64 :
  percent_of_portfolio (mkSizer (of_Z 10000) zero zero) (of_Z 50) (dec 10 2)
  = Ok (mkPortfolio 20 (of_Z 1000) (of_Z 1000)).
Proof. vm_compute. reflexivity. Qed.

Example atr_position_size_example64 :
  atr_position_size (mkSizer (of_Z 10000) zero zero)
    (of_Z 2) (of_Z 1) (dec 2 2)
  = Ok (mkAtrSize 100 (of_Z 200) (of_Z 2)).
Proof. vm_compute. reflexivity. Qed.

(** The raw Kelly fraction 0.55 - 0.45 / 1.5 is the double just above
    0.25; the quantity is 6. *)
Example kelly_position_size_example64 :
  exists r : Kelly,
    kelly_position_size (mkSizer (of_Z 10000) zero zero)
      (of_Z 100) (dec 55 2) (dec 15 1) (dec 25 2) = Ok r /\
    kl_qty r = 6%Z /\
    ltb (dec 25 2) (kl_raw_kelly r) = true.
Proof. eexists. split; [vm_compute; reflexivity|]. split; reflexivity. Qed.

(** An infinite quotient: [math.floor] raises [OverflowError]. *)
Example fixed_risk_by_stop_overflow :
  fixed_risk_by_stop
    (mkSizer (mul (of_Z (10 ^ 18)) (of_Z (10 ^ 290))) zero zero)
    (of_Z 100) (of_Z 95) (of_Z 10)
  = Raise OverflowError.
Proof. vm_compute. reflexivity. Qed.

End Examples64.
